(** * kubefederation: cluster health probe and status reconciler

    A shallow embedding of [controllers/clusterclient.go] (the cluster
    client and its [/healthz] probe) and of the [Reconcile] method of
    [FederatedClusterReconciler], together with the API types of
    [api/v1] they operate on.

    Everything the Go code asks of its environment (the object store,
    the secret store, the clock, the remote [/healthz] endpoint, the
    client-go constructors, the logger) is an event of a small free
    monad [Prog]: a program is the tree of the calls it makes, and
    running it against an environment gives its result together with
    the calls made and the answers received. *)

From Stdlib Require Import ZArith String Ascii List Bool.
From Stdlib Require Import Init.Byte.
From stdpp Require Import base option gmap strings list.

Local Open Scope Z_scope.
Local Open Scope string_scope.

(* ===================================================================== *)
(** ** Errors                                                             *)
(* ===================================================================== *)

(** [metav1.StatusReason], restricted to the reasons the controller
    inspects; any other reason keeps its text. *)
Inductive StatusReason :=
| StatusReasonNotFound
| StatusReasonConflict
| StatusReasonOther (reason : string).

(** Go [error] values.  A nil error is [None] in [option error].
    Formatted errors keep the format string and its arguments apart, so
    that no property depends on a model of [fmt]. *)
Inductive error :=
| Errorf (format : string) (args : list string)   (* pkg/errors.Errorf *)
| Wrapf (cause : error) (format : string) (args : list string)
                                                  (* pkg/errors.Wrapf *)
| StatusError (reason : StatusReason)             (* apierrors.StatusError *)
| OtherError (msg : string).                      (* net, url, rest, ... *)

(** [apierrors.ReasonForError]: the reason of the API status an error
    carries, looking through wrappers; unknown otherwise. *)
Fixpoint ReasonForError (err : error) : option StatusReason :=
  match err with
  | StatusError r => Some r
  | Wrapf cause _ _ => ReasonForError cause
  | Errorf _ _ | OtherError _ => None
  end.

Definition IsConflict (err : error) : bool :=
  match ReasonForError err with
  | Some StatusReasonConflict => true
  | _ => false
  end.

Definition IsNotFound (err : error) : bool :=
  match ReasonForError err with
  | Some StatusReasonNotFound => true
  | _ => false
  end.

(** [client.IgnoreNotFound]. *)
Definition IgnoreNotFound (err : error) : option error :=
  if IsNotFound err then None else Some err.

(* ===================================================================== *)
(** ** API types ([api/v1], [api/v1/common] and the Kubernetes types)     *)
(* ===================================================================== *)

(** [metav1.Time]: an instant, as a number of nanoseconds. *)
Definition Time := Z.

(** [time.Duration], in nanoseconds. *)
Definition Duration := Z.
Definition Second : Duration := 1000000000.

(** [common.ClusterConditionType] is a Go string type.  The constant
    [common.ClusterReady] is [ClusterReadyType] here: the package
    [controllers] has a [ClusterReady] of its own, the reason string. *)
Definition ClusterConditionType := string.
Definition ClusterReadyType : ClusterConditionType := "Ready".
Definition ClusterOffline : ClusterConditionType := "Offline".
Definition ClusterConfigMalformed : ClusterConditionType := "ConfigMalformed".

(** [apiv1.ConditionStatus] is a Go string type. *)
Definition ConditionStatus := string.
Definition ConditionTrue : ConditionStatus := "True".
Definition ConditionFalse : ConditionStatus := "False".
Definition ConditionUnknown : ConditionStatus := "Unknown".

(** [federationv1.ClusterCondition].  The Go fields [Type] and [Status]
    are [CondType] and [CondStatus] here ([Type] is reserved, [Status]
    is also a field of [FederatedCluster]); pointer fields are options. *)
Record ClusterCondition := {
  CondType : ClusterConditionType;
  CondStatus : ConditionStatus;
  LastProbeTime : Time;
  LastTransitionTime : option Time;
  Reason : option string;
  Message : option string
}.

(** [federationv1.FederatedClusterStatus]; the nil slice is [[]]. *)
Record FederatedClusterStatus := {
  Conditions : list ClusterCondition
}.

Record LocalSecretReference := {
  SecretRefName : string                 (* LocalSecretReference.Name *)
}.

Record FederatedClusterSpec := {
  APIEndpoint : string;
  CABundle : list byte;
  SecretRef : LocalSecretReference
}.

(** [federationv1.FederatedCluster]; [Name] and [Namespace] are the
    fields of the embedded [metav1.ObjectMeta] the controller reads. *)
Record FederatedCluster := {
  Name : string;
  Namespace : string;
  Spec : FederatedClusterSpec;
  Status : FederatedClusterStatus
}.

(** [federatedCluster.Status = s]. *)
Definition set_Status (c : FederatedCluster) (s : FederatedClusterStatus)
  : FederatedCluster :=
  {| Name := Name c; Namespace := Namespace c; Spec := Spec c; Status := s |}.

(** [types.NamespacedName]. *)
Record NamespacedName := {
  KeyNamespace : string;
  KeyName : string
}.

(** [apiv1.Secret]: only its [Data] map is read. *)
Record Secret := {
  Data : gmap string (list byte)
}.

(** [ctrl.Request] and [ctrl.Result]. *)
Record Request := {
  ReqNamespacedName : NamespacedName
}.

Record Result := {
  Requeue : bool;
  RequeueAfter : Duration
}.

(** The zero value [ctrl.Result{}]. *)
Definition Result_zero : Result := {| Requeue := false; RequeueAfter := 0 |}.

(** [restclient.Config], the fields the controller sets. *)
Record Config := {
  Host : string;
  CAData : list byte;
  BearerToken : string;
  QPS : Z;
  Burst : Z;
  Timeout : Duration;
  UserAgent : string
}.

(** [kubeclientset.Clientset]: a client is the configuration it was
    built from. *)
Record Clientset := {
  clientConfig : Config
}.

(* ===================================================================== *)
(** ** Constants of [controllers/clusterclient.go]                        *)
(* ===================================================================== *)

Definition UserAgentName := "Cluster-Controller".
Definition KubeAPIQPS : Z := 20.            (* the float constant 20.0 *)
Definition KubeAPIBurst : Z := 30.
Definition TokenKey := "token".
Definition CaCrtKey := "ca.crt".
Definition KubeFedConfigName := "kubefed".

Definition ClusterReady := "ClusterReady".
Definition HealthzOk := "/healthz responded with ok".
Definition ClusterNotReady := "ClusterNotReady".
Definition HealthzNotOk := "/healthz responded without ok".
Definition ClusterNotReachableReason := "ClusterNotReachable".
Definition ClusterNotReachableMsg := "cluster is not reachable".
Definition ClusterReachableReason := "ClusterReachable".
Definition ClusterReachableMsg := "cluster is reachable".
Definition ClusterConfigMalformedReason := "ClusterConfigMalformed".
Definition ClusterConfigMalformedMsg := "cluster's configuration may be malformed".

(* ===================================================================== *)
(** ** The environment as events                                          *)
(* ===================================================================== *)

(** One constructor per call that leaves the controller; the index is
    the type of the answer.  [client.Get] appears twice, once per kind
    of object it is asked to fill. *)
Inductive envE : Type -> Type :=
| GetFederatedCluster (key : NamespacedName) : envE (FederatedCluster + error)
| GetSecret (key : NamespacedName) : envE (Secret + error)
| StatusUpdate (obj : FederatedCluster) : envE (option error)
| BuildConfigFromFlags (masterUrl kubeconfigPath : string) : envE (Config + error)
| NewForConfig (cfg : Config) : envE (Clientset + error)
| Now : envE Time
| HealthzGet (cs : Clientset) : envE (list byte * option error)
| HandleError (err : error) : envE unit
| LogInfo (msg : string) (cluster : NamespacedName) : envE unit.

(** Programs over the environment. *)
Inductive Prog (A : Type) : Type :=
| Ret (a : A)
| Vis {X : Type} (e : envE X) (k : X -> Prog A).
Arguments Ret {A} a.
Arguments Vis {A X} e k.

Fixpoint bind {A B} (p : Prog A) (f : A -> Prog B) : Prog B :=
  match p with
  | Ret a => f a
  | Vis e k => Vis e (fun x => bind (k x) f)
  end.

Definition trigger {X} (e : envE X) : Prog X := Vis e Ret.

#[export] Instance Prog_ret : MRet Prog := fun _ a => Ret a.
#[export] Instance Prog_bind : MBind Prog := fun _ _ f p => bind p f.

(** A program that may end in a Go runtime panic: [None] is the panic,
    [Some a] the normal return of [a]. *)
Definition Panics (A : Type) := Prog (option A).

(* ===================================================================== *)
(** ** [reflect.DeepEqual] on the values the controller passes it         *)
(* ===================================================================== *)

#[export] Instance ClusterCondition_eq_dec : EqDecision ClusterCondition.
Proof. solve_decision. Defined.

#[export] Instance FederatedClusterStatus_eq_dec : EqDecision FederatedClusterStatus.
Proof. solve_decision. Defined.

(** An [interface{}] argument of [reflect.DeepEqual]: a dynamic type and
    a value of it.  The two dynamic types that reach it in this package
    are [*FederatedClusterStatus] and [FederatedClusterStatus]. *)
Inductive iface :=
| PtrFederatedClusterStatus (p : option FederatedClusterStatus)
| ValFederatedClusterStatus (s : FederatedClusterStatus).

(** [reflect.DeepEqual]: values of distinct types are never deeply
    equal; pointers are deeply equal when both are nil or their
    pointees are; structs when their fields are. *)
Definition DeepEqual (x y : iface) : bool :=
  match x, y with
  | PtrFederatedClusterStatus p, PtrFederatedClusterStatus q => bool_decide (p = q)
  | ValFederatedClusterStatus s, ValFederatedClusterStatus t => bool_decide (s = t)
  | _, _ => false
  end.

(* ===================================================================== *)
(** ** [controllers/clusterclient.go]                                     *)
(* ===================================================================== *)

Record ClusterClient := {
  kubeClient : option Clientset;          (* *kubeclientset.Clientset *)
  clusterName : string
}.

(** [restclient.AddUserAgent]. *)
Definition AddUserAgent (config : Config) (userAgent : string) : Config :=
  {| Host := Host config; CAData := CAData config;
     BearerToken := BearerToken config; QPS := QPS config;
     Burst := Burst config; Timeout := Timeout config;
     UserAgent := userAgent |}.

Definition set_Timeout (config : Config) (timeout : Duration) : Config :=
  {| Host := Host config; CAData := CAData config;
     BearerToken := BearerToken config; QPS := QPS config;
     Burst := Burst config; Timeout := timeout;
     UserAgent := UserAgent config |}.

(** The four assignments that end [buildClusterConfig]. *)
Definition set_credentials (config : Config) (caBundle : list byte)
    (token : list byte) : Config :=
  {| Host := Host config; CAData := caBundle;
     BearerToken := string_of_list_byte token; QPS := KubeAPIQPS;
     Burst := KubeAPIBurst; Timeout := Timeout config;
     UserAgent := UserAgent config |}.

(** The [keyObj] of [buildClusterConfig]: the secret is looked up in
    the namespace of the cluster object. *)
Definition keyObj (fedCluster : FederatedCluster) : NamespacedName :=
  {| KeyNamespace := Namespace fedCluster;
     KeyName := SecretRefName (SecretRef (Spec fedCluster)) |}.

Definition buildClusterConfig (fedCluster : FederatedCluster)
  : Prog (Config + error) :=
  let clusterName := Name fedCluster in
  let apiEndpoint := APIEndpoint (Spec fedCluster) in
  if String.eqb apiEndpoint "" then
    mret (inr (Errorf "The api endpoint of cluster %s is empty" [clusterName]))
  else
  let secretName := SecretRefName (SecretRef (Spec fedCluster)) in
  if String.eqb secretName "" then
    mret (inr (Errorf "Cluster %s does not have a secret name" [clusterName]))
  else
  r ← trigger (GetSecret (keyObj fedCluster));
  match r with
  | inr err => mret (inr err)
  | inl secret =>
    let '(token, tokenFound) :=
      match Data secret !! TokenKey with
      | Some token => (token, true)
      | None => ([], false)
      end in
    if negb tokenFound || (length token =? 0)%nat then
      mret (inr (Errorf "The secret for cluster %s is missing a non-empty value for %q"
                        [clusterName; TokenKey]))
    else
    r ← trigger (BuildConfigFromFlags apiEndpoint "");
    match r with
    | inr err => mret (inr err)
    | inl clusterConfig =>
      mret (inl (set_credentials clusterConfig (CABundle (Spec fedCluster)) token))
    end
  end.

Definition NewClusterClientSet (c : FederatedCluster) (timeout : Duration)
  : Prog (ClusterClient * option error) :=
  let clusterClientSet := {| kubeClient := None; clusterName := Name c |} in
  r ← buildClusterConfig c;
  match r with
  | inr err => mret (clusterClientSet, Some err)
  | inl clusterConfig =>
    let clusterConfig := set_Timeout clusterConfig timeout in
    r ← trigger (NewForConfig (AddUserAgent clusterConfig UserAgentName));
    match r with
    | inl cs => mret ({| kubeClient := Some cs; clusterName := Name c |}, None)
    | inr err => mret ({| kubeClient := None; clusterName := Name c |}, Some err)
    end
  end.

(** The five conditions [GetClusterHealthStatus] prepares, as functions
    of the one [currentTime] it reads. *)
Definition newClusterReadyCondition (currentTime : Time) : ClusterCondition :=
  {| CondType := ClusterReadyType; CondStatus := ConditionTrue;
     Reason := Some ClusterReady; Message := Some HealthzOk;
     LastProbeTime := currentTime; LastTransitionTime := Some currentTime |}.

Definition newClusterNotReadyCondition (currentTime : Time) : ClusterCondition :=
  {| CondType := ClusterReadyType; CondStatus := ConditionFalse;
     Reason := Some ClusterNotReady; Message := Some HealthzNotOk;
     LastProbeTime := currentTime; LastTransitionTime := Some currentTime |}.

Definition newClusterOfflineCondition (currentTime : Time) : ClusterCondition :=
  {| CondType := ClusterOffline; CondStatus := ConditionTrue;
     Reason := Some ClusterNotReachableReason;
     Message := Some ClusterNotReachableMsg;
     LastProbeTime := currentTime; LastTransitionTime := Some currentTime |}.

Definition newClusterNotOfflineCondition (currentTime : Time) : ClusterCondition :=
  {| CondType := ClusterOffline; CondStatus := ConditionFalse;
     Reason := Some ClusterReachableReason;
     Message := Some ClusterReachableMsg;
     LastProbeTime := currentTime; LastTransitionTime := Some currentTime |}.

Definition newClusterConfigMalformedCondition (currentTime : Time) : ClusterCondition :=
  {| CondType := ClusterConfigMalformed; CondStatus := ConditionTrue;
     Reason := Some ClusterConfigMalformedReason;
     Message := Some ClusterConfigMalformedMsg;
     LastProbeTime := currentTime; LastTransitionTime := Some currentTime |}.

(** [append(clusterStatus.Conditions, conds...)]. *)
Definition append_Conditions (s : FederatedClusterStatus)
    (conds : list ClusterCondition) : FederatedClusterStatus :=
  {| Conditions := Conditions s ++ conds |}.

Section Controller.

(** [strings.EqualFold], Unicode case folding of the Go library. *)
Variable EqualFold : string -> string -> bool.

(** The result is the pair [(&clusterStatus, err)]: the first component
    is a pointer, [Some] of the status it points to. *)
Definition GetClusterHealthStatus (c : ClusterClient)
  : Prog (option FederatedClusterStatus * option error) :=
  let clusterStatus := {| Conditions := [] |} in
  currentTime ← trigger Now;
  match kubeClient c with
  | None =>
    let clusterStatus :=
      append_Conditions clusterStatus [newClusterConfigMalformedCondition currentTime] in
    mret (Some clusterStatus, None)
  | Some kc =>
    '(body, err) ← trigger (HealthzGet kc);
    match err with
    | Some e =>
      trigger (HandleError
        (Wrapf e "Failed to do cluster health check for cluster %q" [clusterName c]));;
      let clusterStatus :=
        append_Conditions clusterStatus [newClusterOfflineCondition currentTime] in
      mret (Some clusterStatus, err)
    | None =>
      let clusterStatus :=
        if negb (EqualFold (string_of_list_byte body) "ok") then
          append_Conditions clusterStatus
            [newClusterNotReadyCondition currentTime;
             newClusterNotOfflineCondition currentTime]
        else
          append_Conditions clusterStatus [newClusterReadyCondition currentTime] in
      mret (Some clusterStatus, err)
    end
  end.

(** [Reconcile]; [None] as a result is the panic of dereferencing a nil
    [clusterStatus]. *)
Definition Reconcile (req : Request) : Panics (Result * option error) :=
  let key := ReqNamespacedName req in
  r ← trigger (GetFederatedCluster key);
  match r with
  | inr err =>
    trigger (LogInfo "Failed to get FederatedCluster" key);;
    mret (Some (Result_zero, IgnoreNotFound err))
  | inl federatedCluster =>
    '(clusterClient, err) ← NewClusterClientSet federatedCluster (Second * 5);
    match err with
    | Some e =>
      trigger (LogInfo "Failed to generate new clusterset" key);;
      mret (Some (Result_zero, Some e))
    | None =>
      '(clusterStatus, err) ← GetClusterHealthStatus clusterClient;
      match err with
      | Some _ => trigger (LogInfo "Failed to get cluster status" key)
      | None => mret tt
      end;;
      if negb (DeepEqual (PtrFederatedClusterStatus clusterStatus)
                         (ValFederatedClusterStatus (Status federatedCluster)))
      then
        match clusterStatus with
        | None => mret None
        | Some s =>
          let federatedCluster := set_Status federatedCluster s in
          uerr ← trigger (StatusUpdate federatedCluster);
          match uerr with
          | Some e =>
            if IsConflict e then
              mret (Some ({| Requeue := true; RequeueAfter := 0 |}, None))
            else
              trigger (LogInfo "Failed to update cluster status" key);;
              trigger (LogInfo "Success to update cluster status" key);;
              mret (Some (Result_zero, None))
          | None =>
            trigger (LogInfo "Success to update cluster status" key);;
            mret (Some (Result_zero, None))
          end
        end
      else mret (Some (Result_zero, None))
    end
  end.

End Controller.

(* ===================================================================== *)
(** ** Executions                                                         *)
(* ===================================================================== *)

(** A call the program made, with the answer it got. *)
Inductive Call :=
| CGetFederatedCluster (key : NamespacedName) (r : FederatedCluster + error)
| CGetSecret (key : NamespacedName) (r : Secret + error)
| CStatusUpdate (obj : FederatedCluster) (r : option error)
| CBuildConfigFromFlags (masterUrl kubeconfigPath : string) (r : Config + error)
| CNewForConfig (cfg : Config) (r : Clientset + error)
| CNow (t : Time)
| CHealthzGet (cs : Clientset) (r : list byte * option error)
| CHandleError (err : error)
| CLogInfo (msg : string) (cluster : NamespacedName).

Definition observe {X} (e : envE X) : X -> Call :=
  match e in envE X return X -> Call with
  | GetFederatedCluster key => CGetFederatedCluster key
  | GetSecret key => CGetSecret key
  | StatusUpdate obj => CStatusUpdate obj
  | BuildConfigFromFlags m k => CBuildConfigFromFlags m k
  | NewForConfig cfg => CNewForConfig cfg
  | Now => CNow
  | HealthzGet cs => CHealthzGet cs
  | HandleError err => fun _ => CHandleError err
  | LogInfo msg cluster => fun _ => CLogInfo msg cluster
  end.

(** An environment: a state and an answer to every call. *)
Record Handler (W : Type) := {
  handle : forall X, envE X -> W -> X * W
}.
Arguments handle {W} h {X} e w.

(** Running a program in an environment: the result, the final state of
    the environment and the calls made. *)
Fixpoint run {W A} (h : Handler W) (p : Prog A) (w : W) : A * W * list Call :=
  match p with
  | Ret a => (a, w, [])
  | Vis e k =>
    let '(x, w1) := handle h e w in
    let '(a, w2, tr) := run h (k x) w1 in
    (a, w2, observe e x :: tr)
  end.

Definition result {W A} (out : A * W * list Call) : A := fst (fst out).
Definition final {W A} (out : A * W * list Call) : W := snd (fst out).
Definition trace {W A} (out : A * W * list Call) : list Call := snd out.

Definition is_StatusUpdate (c : Call) : bool :=
  match c with CStatusUpdate _ _ => true | _ => false end.

Definition is_Now (c : Call) : bool :=
  match c with CNow _ => true | _ => false end.

(** How many times the store's status update was invoked. *)
Definition statusWrites (tr : list Call) : nat :=
  length (filter (fun c => is_StatusUpdate c = true) tr).

Definition is_BuildConfigFromFlags (c : Call) : bool :=
  match c with CBuildConfigFromFlags _ _ _ => true | _ => false end.

(** How many times a client configuration was built from the endpoint. *)
Definition configBuilds (tr : list Call) : nat :=
  length (filter (fun c => is_BuildConfigFromFlags c = true) tr).

(** How many times the clock was read. *)
Definition clockReads (tr : list Call) : nat :=
  length (filter (fun c => is_Now c = true) tr).

(* ===================================================================== *)
(** ** A concrete environment                                             *)
(* ===================================================================== *)

(** A small stand-in for the API server, the clock and the member
    clusters, in the manner of the fake clients of controller tests:
    objects and secrets are kept in association lists by namespaced
    name, a status update replaces the stored object unless a fault is
    planted, and a member cluster answers [/healthz] with a fixed
    body or with an error. *)
Record World := {
  clusters : list (NamespacedName * FederatedCluster);
  secrets : list (NamespacedName * Secret);
  clock : Time;
  healthz : list byte * option error;
  updateFault : option error;
  statusUpdates : nat
}.

#[export] Instance NamespacedName_eq_dec : EqDecision NamespacedName.
Proof. solve_decision. Defined.

Fixpoint find_key {V} (key : NamespacedName) (l : list (NamespacedName * V))
  : option V :=
  match l with
  | [] => None
  | (k, v) :: l' => if bool_decide (k = key) then Some v else find_key key l'
  end.

Definition objectKey (obj : FederatedCluster) : NamespacedName :=
  {| KeyNamespace := Namespace obj; KeyName := Name obj |}.

Definition store_status (obj : FederatedCluster) (w : World) : World :=
  {| clusters := (objectKey obj, obj) :: clusters w;
     secrets := secrets w; clock := clock w; healthz := healthz w;
     updateFault := updateFault w;
     statusUpdates := S (statusUpdates w) |}.

Definition count_update (w : World) : World :=
  {| clusters := clusters w;
     secrets := secrets w; clock := clock w; healthz := healthz w;
     updateFault := updateFault w;
     statusUpdates := S (statusUpdates w) |}.

Definition world_handle {X} (e : envE X) (w : World) : X * World :=
  match e in envE X return X * World with
  | GetFederatedCluster key =>
    (match find_key key (clusters w) with
     | Some c => inl c
     | None => inr (StatusError StatusReasonNotFound)
     end, w)
  | GetSecret key =>
    (match find_key key (secrets w) with
     | Some s => inl s
     | None => inr (StatusError StatusReasonNotFound)
     end, w)
  | StatusUpdate obj =>
    match updateFault w with
    | Some err => (Some err, count_update w)
    | None => (None, store_status obj w)
    end
  | BuildConfigFromFlags m _ =>
    (inl {| Host := m; CAData := []; BearerToken := ""; QPS := 0; Burst := 0;
            Timeout := 0; UserAgent := "" |}, w)
  | NewForConfig cfg => (inl {| clientConfig := cfg |}, w)
  | Now => (clock w, w)
  | HealthzGet _ => (healthz w, w)
  | HandleError _ => (tt, w)
  | LogInfo _ _ => (tt, w)
  end.

Definition world : Handler World := {| handle := @world_handle |}.

(** The ASCII fragment of [strings.EqualFold]: equal up to the case of
    the letters [A]-[Z]. *)
Definition lower (c : ascii) : ascii :=
  let n := nat_of_ascii c in
  if ((65 <=? n) && (n <=? 90))%nat then ascii_of_nat (n + 32) else c.

Fixpoint asciiEqualFold (s t : string) : bool :=
  match s, t with
  | EmptyString, EmptyString => true
  | String a s', String b t' => Ascii.eqb (lower a) (lower b) && asciiEqualFold s' t'
  | _, _ => false
  end.

(** *** Sample objects

    A member cluster [member1] of the namespace [kube-federation-system],
    its secret, and a few states of the world around them. *)
Definition member1_key : NamespacedName :=
  {| KeyNamespace := "kube-federation-system"; KeyName := "member1" |}.

Definition member1_request : Request := {| ReqNamespacedName := member1_key |}.

Definition member1_secret_key : NamespacedName :=
  {| KeyNamespace := "kube-federation-system"; KeyName := "member1-secret" |}.

Definition member1_secret : Secret :=
  {| Data := {[ "token" := list_byte_of_string "s3cr3t" ]} |}.

Definition member1_with (endpoint : string) (status : FederatedClusterStatus)
  : FederatedCluster :=
  {| Name := "member1"; Namespace := "kube-federation-system";
     Spec := {| APIEndpoint := endpoint; CABundle := [];
                SecretRef := {| SecretRefName := "member1-secret" |} |};
     Status := status |}.

Definition member1_endpoint := "https://member1.example.com:6443".

(** [member1] answers [ok] at instant 100, and the status stored for it
    is already the one that answer is classified as. *)
Definition ready_status : FederatedClusterStatus :=
  {| Conditions := [newClusterReadyCondition 100] |}.

Definition world_ready : World :=
  {| clusters := [(member1_key, member1_with member1_endpoint ready_status)];
     secrets := [(member1_secret_key, member1_secret)];
     clock := 100;
     healthz := (list_byte_of_string "ok", None);
     updateFault := None;
     statusUpdates := 0 |}.

(** [member1] is declared without an endpoint and has no status yet. *)
Definition world_no_endpoint : World :=
  {| clusters := [(member1_key, member1_with "" {| Conditions := [] |})];
     secrets := [(member1_secret_key, member1_secret)];
     clock := 100;
     healthz := (list_byte_of_string "ok", None);
     updateFault := None;
     statusUpdates := 0 |}.

(** [member1] answers [/healthz] with [body] or fails with [err]; the
    store answers the next status update with [fault]. *)
Definition world_probe (body : string) (err fault : option error) : World :=
  {| clusters := [(member1_key, member1_with member1_endpoint {| Conditions := [] |})];
     secrets := [(member1_secret_key, member1_secret)];
     clock := 100;
     healthz := (list_byte_of_string body, err);
     updateFault := fault;
     statusUpdates := 0 |}.

(** The client set [NewClusterClientSet] builds for [member1] in these
    worlds, and the one it returns when construction fails. *)
Definition member1_clientset : Clientset :=
  {| clientConfig :=
       {| Host := member1_endpoint; CAData := [];
          BearerToken := "s3cr3t"; QPS := KubeAPIQPS; Burst := KubeAPIBurst;
          Timeout := Second * 5; UserAgent := UserAgentName |} |}.

Definition member1_client : ClusterClient :=
  {| kubeClient := Some member1_clientset; clusterName := "member1" |}.

Definition member1_no_client : ClusterClient :=
  {| kubeClient := None; clusterName := "member1" |}.

(** *** Further observations and environments *)

Definition is_HealthzGet (c : Call) : bool :=
  match c with CHealthzGet _ _ => true | _ => false end.

(** How many times a member cluster was asked for [/healthz]. *)
Definition healthzGets (tr : list Call) : nat :=
  length (filter (fun c => is_HealthzGet c = true) tr).

(** The three statuses a health check through a client can give at the
    instant [t]. *)
Definition probe_outcomes (t : Time) : list (list ClusterCondition) :=
  [ [newClusterReadyCondition t];
    [newClusterNotReadyCondition t; newClusterNotOfflineCondition t];
    [newClusterOfflineCondition t] ].

(** An object store whose every read of a cluster fails with [err]; the
    rest of the environment is [world]. *)
Definition failing_store_handle (err : error) {X} (e : envE X) (w : World)
  : X * World :=
  match e in envE X return X * World with
  | GetFederatedCluster _ => (inr err, w)
  | e' => world_handle e' w
  end.

Definition failing_store (err : error) : Handler World :=
  {| handle := @failing_store_handle err |}.

(** [member1] is declared, its secret is not there. *)
Definition world_no_secret : World :=
  {| clusters := [(member1_key, member1_with member1_endpoint {| Conditions := [] |})];
     secrets := [];
     clock := 100;
     healthz := (list_byte_of_string "ok", None);
     updateFault := None;
     statusUpdates := 0 |}.

(** [member1] has been deleted. *)
Definition world_deleted : World :=
  {| clusters := [];
     secrets := [(member1_secret_key, member1_secret)];
     clock := 100;
     healthz := (list_byte_of_string "ok", None);
     updateFault := None;
     statusUpdates := 0 |}.

(* ===================================================================== *)
(** ** Proof automation                                                   *)
(* ===================================================================== *)

(** Unfolds one environment call of a run: the answer and the next state
    of the environment become variables. *)
Ltac answer h :=
  match goal with
  | |- context [handle h ?e ?w] =>
    let x := fresh "x" in
    let w' := fresh "w" in
    let E := fresh "Hcall" in
    destruct (handle h e w) as [x w'] eqn:E; cbn [fst snd] in *
  end.

(** Membership of a call in a short explicit trace. *)
Ltac trace_in H :=
  repeat (destruct H as [H | H]; [try discriminate H | ]);
  try contradiction.

(** Symbolic execution of a run: every environment call is answered by
    a fresh variable, every branch of the program is taken in turn. *)
Ltac run_all h :=
  repeat (cbn -[String.eqb Nat.eqb] in *;
          first [ answer h
                | match goal with
                  | |- context [match ?x with _ => _ end] =>
                    lazymatch x with
                    | context [run] => fail
                    | _ => destruct x eqn:?
                    end
                  end ]).

Ltac unfold_controller :=
  unfold Reconcile, NewClusterClientSet, buildClusterConfig,
         GetClusterHealthStatus.

(** The same, leaving the counters of calls folded: they are evaluated
    once the trace is known. *)
Ltac run_pass h :=
  repeat (cbn -[String.eqb Nat.eqb statusWrites clockReads healthzGets
                configBuilds] in *;
          first [ answer h
                | match goal with
                  | |- context [match ?x with _ => _ end] =>
                    lazymatch x with
                    | context [run] => fail
                    | context [@decide] => fail
                    | _ => destruct x eqn:?
                    end
                  end ]).

(* ===================================================================== *)
(** ** Running programs                                                   *)
(* ===================================================================== *)

Lemma run_bind {W A B} (h : Handler W) (p : Prog A) (f : A -> Prog B) (w : W) :
  run h (bind p f) w =
  let '(a, w1, tr1) := run h p w in
  let '(b, w2, tr2) := run h (f a) w1 in
  (b, w2, (tr1 ++ tr2)%list).
Proof.
  revert w. induction p as [a | X e k IH]; intros w; simpl.
  - destruct (run h (f a) w) as [[b w2] tr2]. reflexivity.
  - destruct (handle h e w) as [x w1]. rewrite IH.
    destruct (run h (k x) w1) as [[a w2] tr1].
    destruct (run h (f a) w2) as [[b w3] tr2]. reflexivity.
Qed.

Section Probe.
Variable EqualFold : string -> string -> bool.
Context {W : Type} (h : Handler W).

(** The run of a health check, by cases on the client and on the answer
    of the member cluster. *)
Lemma run_GetClusterHealthStatus (w : W) (c : ClusterClient) :
  let t := fst (handle h Now w) in
  let w1 := snd (handle h Now w) in
  run h (GetClusterHealthStatus EqualFold c) w =
  match kubeClient c with
  | None =>
    (Some {| Conditions := [newClusterConfigMalformedCondition t] |}, None,
     w1, [CNow t])
  | Some kc =>
    let '(body, err, w2) := handle h (HealthzGet kc) w1 in
    match err with
    | Some e =>
      let herr := Wrapf e "Failed to do cluster health check for cluster %q"
                        [clusterName c] in
      (Some {| Conditions := [newClusterOfflineCondition t] |}, Some e,
       snd (handle h (HandleError herr) w2),
       [CNow t; CHealthzGet kc (body, Some e); CHandleError herr])
    | None =>
      (Some {| Conditions :=
                 if negb (EqualFold (string_of_list_byte body) "ok")
                 then [newClusterNotReadyCondition t;
                       newClusterNotOfflineCondition t]
                 else [newClusterReadyCondition t] |}, None,
       w2, [CNow t; CHealthzGet kc (body, None)])
    end
  end.
Proof.
  unfold GetClusterHealthStatus. cbn.
  destruct (handle h Now w) as [t w1]. cbn [fst snd].
  destruct (kubeClient c) as [kc|]; cbn; [|reflexivity].
  destruct (handle h (HealthzGet kc) w1) as [[body [e|]] w2]; cbn.
  - destruct (handle h _ w2) as [[] w3]. reflexivity.
  - destruct (negb _); reflexivity.
Qed.

(** C3 (amended).  A health check on a client set whose underlying
    client is nil reads the clock and returns the status made of the
    single condition ConfigMalformed=True, with reason
    "ClusterConfigMalformed" and message "cluster's configuration may be
    malformed", together with a nil error: the construction error is
    what [NewClusterClientSet] returned, the health check does not
    return it again. *)
Theorem GetClusterHealthStatus_nil_client (w : W) (c : ClusterClient) :
  kubeClient c = None ->
  let t := fst (handle h Now w) in
  result (run h (GetClusterHealthStatus EqualFold c) w) =
    (Some {| Conditions :=
               [ {| CondType := "ConfigMalformed"; CondStatus := "True";
                    LastProbeTime := t; LastTransitionTime := Some t;
                    Reason := Some "ClusterConfigMalformed";
                    Message := Some "cluster's configuration may be malformed" |} ] |},
     None)
  /\ trace (run h (GetClusterHealthStatus EqualFold c) w) = [CNow t].
Proof.
  intros Hnil t. rewrite run_GetClusterHealthStatus, Hnil.
  split; reflexivity.
Qed.

(** C4.  When the GET of /healthz succeeds and its body folds to "ok",
    the health check returns the status made of the single condition
    Ready=True, with reason "ClusterReady" and message "/healthz
    responded with ok", and a nil error. *)
Theorem GetClusterHealthStatus_ready (w : W) (c : ClusterClient)
    (kc : Clientset) (body : list byte) :
  kubeClient c = Some kc ->
  In (CHealthzGet kc (body, None))
     (trace (run h (GetClusterHealthStatus EqualFold c) w)) ->
  EqualFold (string_of_list_byte body) "ok" = true ->
  let t := fst (handle h Now w) in
  result (run h (GetClusterHealthStatus EqualFold c) w) =
    (Some {| Conditions :=
               [ {| CondType := "Ready"; CondStatus := "True";
                    LastProbeTime := t; LastTransitionTime := Some t;
                    Reason := Some "ClusterReady";
                    Message := Some "/healthz responded with ok" |} ] |},
     None).
Proof.
  intros Hkc Hin Hok t. revert Hin.
  rewrite run_GetClusterHealthStatus, Hkc. cbn zeta.
  destruct (handle h (HealthzGet kc) _) as [[body0 [e|]] w2];
    cbn; intros Hin; trace_in Hin.
  injection Hin as ->. rewrite Hok. reflexivity.
Qed.

(** C5.  When the GET of /healthz succeeds and its body does not fold to
    "ok", the health check returns exactly two conditions, in this
    order: Ready=False with reason "ClusterNotReady" and message
    "/healthz responded without ok", then Offline=False with reason
    "ClusterReachable" and message "cluster is reachable". *)
Theorem GetClusterHealthStatus_not_ready (w : W) (c : ClusterClient)
    (kc : Clientset) (body : list byte) :
  kubeClient c = Some kc ->
  In (CHealthzGet kc (body, None))
     (trace (run h (GetClusterHealthStatus EqualFold c) w)) ->
  EqualFold (string_of_list_byte body) "ok" = false ->
  let t := fst (handle h Now w) in
  result (run h (GetClusterHealthStatus EqualFold c) w) =
    (Some {| Conditions :=
               [ {| CondType := "Ready"; CondStatus := "False";
                    LastProbeTime := t; LastTransitionTime := Some t;
                    Reason := Some "ClusterNotReady";
                    Message := Some "/healthz responded without ok" |};
                 {| CondType := "Offline"; CondStatus := "False";
                    LastProbeTime := t; LastTransitionTime := Some t;
                    Reason := Some "ClusterReachable";
                    Message := Some "cluster is reachable" |} ] |},
     None).
Proof.
  intros Hkc Hin Hok t. revert Hin.
  rewrite run_GetClusterHealthStatus, Hkc. cbn zeta.
  destruct (handle h (HealthzGet kc) _) as [[body0 [e|]] w2];
    cbn; intros Hin; trace_in Hin.
  injection Hin as ->. rewrite Hok. reflexivity.
Qed.

(** C6.  When the GET of /healthz fails, the health check returns the
    status made of the single condition Offline=True, with reason
    "ClusterNotReachable" and message "cluster is not reachable", and
    returns the transport error with it. *)
Theorem GetClusterHealthStatus_offline (w : W) (c : ClusterClient)
    (kc : Clientset) (body : list byte) (e : error) :
  kubeClient c = Some kc ->
  In (CHealthzGet kc (body, Some e))
     (trace (run h (GetClusterHealthStatus EqualFold c) w)) ->
  let t := fst (handle h Now w) in
  result (run h (GetClusterHealthStatus EqualFold c) w) =
    (Some {| Conditions :=
               [ {| CondType := "Offline"; CondStatus := "True";
                    LastProbeTime := t; LastTransitionTime := Some t;
                    Reason := Some "ClusterNotReachable";
                    Message := Some "cluster is not reachable" |} ] |},
     Some e).
Proof.
  intros Hkc Hin t. revert Hin.
  rewrite run_GetClusterHealthStatus, Hkc. cbn zeta.
  destruct (handle h (HealthzGet kc) _) as [[body0 [e0|]] w2];
    cbn; intros Hin; trace_in Hin.
  injection Hin as -> ->. reflexivity.
Qed.

(** C9.  In one health check the clock is read once, first, and every
    condition of the returned status carries the instant read there both
    as lastProbeTime and as lastTransitionTime. *)
Theorem GetClusterHealthStatus_one_timestamp (w : W) (c : ClusterClient) :
  let out := run h (GetClusterHealthStatus EqualFold c) w in
  let t := fst (handle h Now w) in
  head (trace out) = Some (CNow t)
  /\ clockReads (trace out) = 1%nat
  /\ exists s, fst (result out) = Some s
      /\ Forall (fun cond => LastProbeTime cond = t
                            /\ LastTransitionTime cond = Some t)
                (Conditions s).
Proof.
  cbn zeta. rewrite run_GetClusterHealthStatus. cbn zeta.
  destruct (kubeClient c) as [kc|].
  - destruct (handle h (HealthzGet kc) _) as [[body [e|]] w2]; cbn.
    + repeat split; eexists; split; [reflexivity|].
      repeat constructor.
    + repeat split; eexists; split; [reflexivity|].
      destruct (negb _); repeat constructor.
  - cbn. repeat split; eexists; split; [reflexivity|]. repeat constructor.
Qed.

(** C10.  A health check always returns a non-nil status of one or two
    conditions whose types are pairwise distinct, and its error is
    non-nil exactly when that status is a single condition of type
    Offline and status True. *)
Theorem GetClusterHealthStatus_shape (w : W) (c : ClusterClient) :
  let out := run h (GetClusterHealthStatus EqualFold c) w in
  exists s, fst (result out) = Some s
    /\ (1 <= length (Conditions s) <= 2)%nat
    /\ NoDup (map CondType (Conditions s))
    /\ (snd (result out) <> None <->
        exists cond, Conditions s = [cond]
                     /\ CondType cond = ClusterOffline
                     /\ CondStatus cond = ConditionTrue).
Proof.
  cbn zeta. rewrite run_GetClusterHealthStatus. cbn zeta.
  destruct (kubeClient c) as [kc|].
  - destruct (handle h (HealthzGet kc) _) as [[body [e|]] w2]; cbn.
    + eexists; split; [reflexivity|]. cbn. repeat split; try lia.
      * apply NoDup_cons; split; [apply not_elem_of_nil | apply NoDup_nil_2].
      * intros _. eexists; repeat split.
      * discriminate.
    + eexists; split; [reflexivity|].
      destruct (negb _); cbn; repeat split; try lia.
      * apply NoDup_cons; split; [|apply NoDup_singleton].
        rewrite list_elem_of_singleton. discriminate.
      * intros H; contradiction.
      * intros (cond & Hc & _). discriminate Hc.
      * apply NoDup_singleton.
      * intros H; contradiction.
      * intros (cond & Hc & Ht & _). injection Hc as <-. discriminate Ht.
  - cbn. eexists; split; [reflexivity|]. cbn. repeat split; try lia.
    + apply NoDup_singleton.
    + intros H; contradiction.
    + intros (cond & Hc & Ht & _). injection Hc as <-. discriminate Ht.
Qed.

End Probe.

Section Reconciler.
Variable EqualFold : string -> string -> bool.
Context {W : Type} (h : Handler W).

(** The comparison of [Reconcile] is between a pointer to a status and a
    status: two distinct types, never deeply equal. *)
Lemma DeepEqual_pointer_value (p : option FederatedClusterStatus)
    (s : FederatedClusterStatus) :
  DeepEqual (PtrFederatedClusterStatus p) (ValFederatedClusterStatus s) = false.
Proof. reflexivity. Qed.

(** [Reconcile] never dereferences a nil status. *)
Lemma Reconcile_no_panic (w : W) (req : Request) :
  exists res, result (run h (Reconcile EqualFold req) w) = Some res.
Proof.
  unfold_controller. run_all h; eexists; reflexivity.
Qed.

(** A pass that reaches the probe always goes on to write the status:
    the clock is read only by the probe, and every path from there
    invokes the status update once. *)
Lemma Reconcile_probe_then_write (w : W) (req : Request) :
  let out := run h (Reconcile EqualFold req) w in
  statusWrites (trace out) = clockReads (trace out).
Proof.
  cbn zeta. unfold_controller. run_all h; reflexivity.
Qed.

(** A pass in which the construction of the client set fails returns the
    construction error to its caller and neither probes nor writes. *)
Lemma Reconcile_construction_failure (w w1 : W) (req : Request)
    (fc : FederatedCluster) (e : error) :
  let out := run h (Reconcile EqualFold req) w in
  handle h (GetFederatedCluster (ReqNamespacedName req)) w = (inl fc, w1) ->
  snd (result (run h (NewClusterClientSet fc (Second * 5)) w1)) = Some e ->
  result out = Some (Result_zero, Some e)
  /\ statusWrites (trace out) = 0%nat
  /\ clockReads (trace out) = 0%nat.
Proof.
  cbn zeta. intros Hfc. unfold_controller. cbn. rewrite Hfc.
  run_all h; intros Herr; try discriminate;
    injection Herr as <-; repeat split.
Qed.

(** C8.  When the status update of a pass is answered with an error: if
    the error is a conflict, [Reconcile] returns the requeue result and a
    nil error; otherwise it logs the failure and returns the zero result
    (no requeue) and a nil error. *)
Theorem Reconcile_update_failure (w : W) (req : Request)
    (obj : FederatedCluster) (err : error) :
  let out := run h (Reconcile EqualFold req) w in
  In (CStatusUpdate obj (Some err)) (trace out) ->
  (IsConflict err = true ->
     result out = Some ({| Requeue := true; RequeueAfter := 0 |}, None))
  /\ (IsConflict err = false ->
       result out = Some ({| Requeue := false; RequeueAfter := 0 |}, None)
       /\ In (CLogInfo "Failed to update cluster status" (ReqNamespacedName req))
             (trace out)).
Proof.
  cbn zeta. unfold_controller.
  run_all h; intros Hin; trace_in Hin;
    injection Hin as <- <-; cbn;
    (split; intros Hc; [try reflexivity; congruence|]);
    try congruence; (split; [reflexivity|]); tauto.
Qed.

(** C7.  The construction of a client configuration fails before a
    configuration is built exactly when the endpoint is empty, or the
    name of the secret is empty, or the lookup of the secret fails, or
    the secret has no token or an empty one; no client comes out of
    [NewClusterClientSet] then.  In every other case the four checks
    pass and the configuration is built from the endpoint, the CA bundle
    and the token. *)
Theorem buildClusterConfig_fails_iff (w : W) (c : FederatedCluster)
    (timeout : Duration) :
  let lookup := fst (handle h (GetSecret (keyObj c)) w) in
  let malformed :=
    APIEndpoint (Spec c) = ""
    \/ SecretRefName (SecretRef (Spec c)) = ""
    \/ (exists e, lookup = inr e)
    \/ (exists s, lookup = inl s
                  /\ (Data s !! TokenKey = None \/ Data s !! TokenKey = Some [])) in
  let out := run h (buildClusterConfig c) w in
  let client := result (run h (NewClusterClientSet c timeout) w) in
  (malformed <->
     (exists e, result out = inr e) /\ configBuilds (trace out) = 0%nat)
  /\ (malformed ->
       kubeClient (fst client) = None
       /\ exists e, result out = inr e /\ snd client = Some e)
  /\ (~ malformed ->
       exists s token r,
         lookup = inl s /\ Data s !! TokenKey = Some token /\ token <> []
         /\ trace out =
              [CGetSecret (keyObj c) (inl s);
               CBuildConfigFromFlags (APIEndpoint (Spec c)) "" r]
         /\ result out =
              match r with
              | inl cfg => inl (set_credentials cfg (CABundle (Spec c)) token)
              | inr e => inr e
              end).
Proof.
  cbn zeta. unfold NewClusterClientSet, buildClusterConfig.
  destruct (String.eqb_spec (APIEndpoint (Spec c)) "") as [He|He].
  { cbn. repeat split; eauto; intros []; auto. }
  destruct (String.eqb_spec (SecretRefName (SecretRef (Spec c))) "") as [Hs|Hs].
  { cbn. repeat split; eauto; intros []; auto. }
  cbn. destruct (handle h (GetSecret (keyObj c)) w) as [[s|e] w1]; cbn.
  2:{ repeat split; eauto 6. intros []. eauto 6. }
  destruct (Data s !! TokenKey) as [[|b token]|] eqn:Htok; cbn.
  1,3: repeat split; eauto 8; intros []; eauto 8.
  destruct (handle h (BuildConfigFromFlags _ _) w1) as [r w2]; cbn.
  match goal with |- (?M <-> _) /\ _ => assert (Hnm : ~ M) end.
  { intros [?|[?|[[e Hx]|(s0 & Hx & [Hn|Hn])]]]; try congruence;
      injection Hx as <-; congruence. }
  destruct r as [cfg|e]; cbn;
    (split; [split; [intros Hm; contradiction | intros [_ Hb]; discriminate Hb]|]);
    (split; [intros Hm; contradiction|]);
    intros _; exists s, (b :: token); eexists; repeat split;
    first [exact Htok | discriminate].
Qed.

End Reconciler.

(* ===================================================================== *)
(** ** Further properties of [Reconcile]                                  *)
(* ===================================================================== *)

Section ReconcilePass.
Variable EqualFold : string -> string -> bool.
Context {W : Type} (h : Handler W).

(** When the object is not found, the pass ends as a success: zero
    result, nil error, and nothing but the read and its log line. *)
Theorem Reconcile_not_found (w : W) (req : Request) (err : error) :
  let key := ReqNamespacedName req in
  let out := run h (Reconcile EqualFold req) w in
  In (CGetFederatedCluster key (inr err)) (trace out) ->
  IsNotFound err = true ->
  result out = Some (Result_zero, None)
  /\ trace out = [CGetFederatedCluster key (inr err);
                  CLogInfo "Failed to get FederatedCluster" key].
Proof.
  cbn zeta. unfold_controller.
  run_pass h; intros Hin Hnf; trace_in Hin; injection Hin as <-;
    unfold IgnoreNotFound; rewrite Hnf; split; reflexivity.
Qed.

(** Any other failure to read the object is returned to the caller as
    it is, after the log line; nothing else is attempted. *)
Theorem Reconcile_get_error (w : W) (req : Request) (err : error) :
  let key := ReqNamespacedName req in
  let out := run h (Reconcile EqualFold req) w in
  In (CGetFederatedCluster key (inr err)) (trace out) ->
  IsNotFound err = false ->
  result out = Some (Result_zero, Some err)
  /\ trace out = [CGetFederatedCluster key (inr err);
                  CLogInfo "Failed to get FederatedCluster" key].
Proof.
  cbn zeta. unfold_controller.
  run_pass h; intros Hin Hnf; trace_in Hin; injection Hin as <-;
    unfold IgnoreNotFound; rewrite Hnf; split; reflexivity.
Qed.

(** The object a pass writes is the object it read, with its status
    replaced by the outcome of the probe stamped with the instant the
    probe read. *)
Theorem Reconcile_writes_probed_status (w : W) (req : Request)
    (obj : FederatedCluster) (r : option error) :
  let out := run h (Reconcile EqualFold req) w in
  In (CStatusUpdate obj r) (trace out) ->
  exists fc t,
    In (CGetFederatedCluster (ReqNamespacedName req) (inl fc)) (trace out)
    /\ In (CNow t) (trace out)
    /\ Name obj = Name fc /\ Namespace obj = Namespace fc /\ Spec obj = Spec fc
    /\ In (Conditions (Status obj)) (probe_outcomes t).
Proof.
  cbn zeta. unfold_controller.
  run_pass h; intros Hin; trace_in Hin; injection Hin as <- <-;
    eexists _, _; cbn; (split; [left; reflexivity|]);
    (split; [tauto|]); repeat (split; [reflexivity|]); tauto.
Qed.

(** No pass ever writes a condition of type ConfigMalformed. *)
Theorem Reconcile_never_writes_ConfigMalformed (w : W) (req : Request)
    (obj : FederatedCluster) (r : option error) :
  let out := run h (Reconcile EqualFold req) w in
  In (CStatusUpdate obj r) (trace out) ->
  Forall (fun cond => CondType cond <> ClusterConfigMalformed)
         (Conditions (Status obj)).
Proof.
  cbn zeta. unfold_controller.
  run_pass h; intros Hin; trace_in Hin; injection Hin as <- <-;
    cbn; repeat constructor; discriminate.
Qed.

(** A pass reads the clock, asks for [/healthz] and writes the status
    at most once each: nothing is retried within a pass. *)
Theorem Reconcile_at_most_once (w : W) (req : Request) :
  let out := run h (Reconcile EqualFold req) w in
  (clockReads (trace out) <= 1)%nat
  /\ (healthzGets (trace out) <= 1)%nat
  /\ (statusWrites (trace out) <= 1)%nat.
Proof.
  cbn zeta. unfold_controller.
  run_pass h; repeat split; vm_compute; lia.
Qed.

(** A failure of the probe is not an error of the pass: it is logged,
    the Offline status is written, and the error returned comes from
    nowhere but that write. *)
Theorem Reconcile_probe_error_not_returned (w : W) (req : Request)
    (kc : Clientset) (body : list byte) (e : error) :
  let out := run h (Reconcile EqualFold req) w in
  In (CHealthzGet kc (body, Some e)) (trace out) ->
  (exists res, result out = Some (res, None))
  /\ In (CLogInfo "Failed to get cluster status" (ReqNamespacedName req))
        (trace out)
  /\ exists obj r t,
       In (CStatusUpdate obj r) (trace out)
       /\ Conditions (Status obj) = [newClusterOfflineCondition t].
Proof.
  cbn zeta. unfold_controller.
  run_pass h; intros Hin; trace_in Hin; injection Hin as <- <-;
    (split; [eexists; reflexivity|]); (split; [cbn; tauto|]);
    eexists _, _, _; (split; [cbn; tauto|]); reflexivity.
Qed.

(** [Reconcile] asks to be requeued exactly when its status update was
    answered with a conflict, and never asks for a delayed requeue. *)
Theorem Reconcile_requeue_iff_conflict (w : W) (req : Request) :
  let out := run h (Reconcile EqualFold req) w in
  exists res err,
    result out = Some (res, err)
    /\ RequeueAfter res = 0
    /\ (Requeue res = true <->
        exists obj e, In (CStatusUpdate obj (Some e)) (trace out)
                      /\ IsConflict e = true).
Proof.
  cbn zeta. unfold_controller.
  run_pass h; eexists _, _; (split; [reflexivity|]); (split; [reflexivity|]);
    cbn;
    (split;
     [ intros Hr;
       first [ discriminate Hr
             | eexists _, _; split; [tauto | eassumption] ]
     | intros (obj & e' & Hin & Hc);
       first [ reflexivity
             | exfalso; trace_in Hin; injection Hin as <- <-; congruence ] ]).
Qed.

(** After a status update that succeeds, the pass logs the success and
    returns the zero result and a nil error. *)
Theorem Reconcile_update_success (w : W) (req : Request)
    (obj : FederatedCluster) :
  let out := run h (Reconcile EqualFold req) w in
  In (CStatusUpdate obj None) (trace out) ->
  result out = Some (Result_zero, None)
  /\ last (trace out)
     = Some (CLogInfo "Success to update cluster status" (ReqNamespacedName req)).
Proof.
  cbn zeta. unfold_controller.
  run_pass h; intros Hin; trace_in Hin; split; reflexivity.
Qed.

(** After a status update that fails without a conflict, the pass logs
    the failure and then logs a success all the same: these two lines
    end the pass. *)
Theorem Reconcile_failed_update_logs_success (w : W) (req : Request)
    (obj : FederatedCluster) (err : error) :
  let key := ReqNamespacedName req in
  let out := run h (Reconcile EqualFold req) w in
  In (CStatusUpdate obj (Some err)) (trace out) ->
  IsConflict err = false ->
  exists before,
    trace out = (before ++ [CStatusUpdate obj (Some err);
                            CLogInfo "Failed to update cluster status" key;
                            CLogInfo "Success to update cluster status" key])%list.
Proof.
  cbn zeta. unfold_controller.
  run_pass h; intros Hin Hc; trace_in Hin; injection Hin as <- <-;
    try congruence;
    match goal with
    | |- exists before, ?tr = _ =>
      first [ exists (take 7 tr); reflexivity
            | exists (take 6 tr); reflexivity
            | exists (take 8 tr); reflexivity ]
    end.
Qed.

(** A pass that returns an error has neither probed nor written: errors
    come from reading the object or from building the client set. *)
Theorem Reconcile_error_means_no_probe (w : W) (req : Request) (e : error) :
  let out := run h (Reconcile EqualFold req) w in
  snd <$> result out = Some (Some e) ->
  clockReads (trace out) = 0%nat
  /\ healthzGets (trace out) = 0%nat
  /\ statusWrites (trace out) = 0%nat.
Proof.
  cbn zeta. unfold_controller.
  run_pass h; intros He; try discriminate He; repeat split.
Qed.

(** The secret a pass reads is the one the cluster object names, in the
    namespace of that object. *)
Theorem Reconcile_secret_lookup_key (w : W) (req : Request)
    (k : NamespacedName) (r : Secret + error) :
  let out := run h (Reconcile EqualFold req) w in
  In (CGetSecret k r) (trace out) ->
  exists fc,
    In (CGetFederatedCluster (ReqNamespacedName req) (inl fc)) (trace out)
    /\ KeyNamespace k = Namespace fc
    /\ KeyName k = SecretRefName (SecretRef (Spec fc)).
Proof.
  cbn zeta. unfold_controller.
  run_pass h; intros Hin; trace_in Hin; injection Hin as <- <-;
    eexists; (split; [left; reflexivity|]); split; reflexivity.
Qed.


End ReconcilePass.

(* ===================================================================== *)
(** ** Further properties of the cluster client                           *)
(* ===================================================================== *)

Section ClusterClientSet.
Variable EqualFold : string -> string -> bool.
Context {W : Type} (h : Handler W).

(** A descriptor without endpoint or without secret name is refused
    before anything is asked of the environment; the missing endpoint is
    reported first. *)
Theorem buildClusterConfig_invalid_descriptor (w : W) (c : FederatedCluster) :
  APIEndpoint (Spec c) = "" \/ SecretRefName (SecretRef (Spec c)) = "" ->
  let out := run h (buildClusterConfig c) w in
  trace out = [] /\ final out = w
  /\ result out =
     inr (Errorf (if String.eqb (APIEndpoint (Spec c)) ""
                  then "The api endpoint of cluster %s is empty"
                  else "Cluster %s does not have a secret name")
                 [Name c]).
Proof.
  intros Hbad. cbn zeta. unfold buildClusterConfig.
  destruct (String.eqb_spec (APIEndpoint (Spec c)) "") as [He|He].
  - repeat split.
  - destruct Hbad as [Hbad|Hbad]; [contradiction|].
    rewrite Hbad. repeat split.
Qed.

(** When the lookup of the secret fails, the error of the store is
    returned as it is, and the lookup is the only call made. *)
Theorem buildClusterConfig_lookup_error (w : W) (c : FederatedCluster)
    (k : NamespacedName) (e : error) :
  let out := run h (buildClusterConfig c) w in
  In (CGetSecret k (inr e)) (trace out) ->
  result out = inr e /\ k = keyObj c /\ trace out = [CGetSecret k (inr e)].
Proof.
  cbn zeta. unfold buildClusterConfig.
  run_pass h; intros Hin; trace_in Hin; injection Hin as <- <-;
    repeat split.
Qed.

(** A configuration that comes out of [buildClusterConfig] is the one
    built from the endpoint, with the CA bundle of the descriptor, the
    non-empty token of its secret as bearer token, and the rate limits
    20 and 30. *)
Theorem buildClusterConfig_success (w : W) (c : FederatedCluster) (cfg : Config) :
  let out := run h (buildClusterConfig c) w in
  result out = inl cfg ->
  exists s token cfg0,
    trace out = [CGetSecret (keyObj c) (inl s);
                 CBuildConfigFromFlags (APIEndpoint (Spec c)) "" (inl cfg0)]
    /\ APIEndpoint (Spec c) <> "" /\ SecretRefName (SecretRef (Spec c)) <> ""
    /\ Data s !! TokenKey = Some token /\ token <> []
    /\ CAData cfg = CABundle (Spec c)
    /\ BearerToken cfg = string_of_list_byte token
    /\ QPS cfg = 20 /\ Burst cfg = 30
    /\ Host cfg = Host cfg0 /\ Timeout cfg = Timeout cfg0
    /\ UserAgent cfg = UserAgent cfg0.
Proof.
  cbn zeta. unfold buildClusterConfig.
  destruct (String.eqb_spec (APIEndpoint (Spec c)) "") as [He|He];
    [intros Hr; discriminate Hr|].
  destruct (String.eqb_spec (SecretRefName (SecretRef (Spec c))) "") as [Hs|Hs];
    [intros Hr; discriminate Hr|].
  cbn. destruct (handle h (GetSecret (keyObj c)) w) as [[s|e] w1]; cbn;
    [|intros Hr; discriminate Hr].
  destruct (Data s !! TokenKey) as [[|b token]|] eqn:Htok; cbn;
    try (intros Hr; discriminate Hr).
  destruct (handle h (BuildConfigFromFlags _ _) w1) as [[cfg0|e] w2]; cbn;
    intros Hr; [|discriminate Hr].
  injection Hr as <-. exists s, (b :: token), cfg0.
  repeat split; first [assumption | discriminate].
Qed.

(** The client set returned always carries the name of the cluster, and
    its client is nil exactly when an error is returned with it. *)
Theorem NewClusterClientSet_nil_iff_error (w : W) (c : FederatedCluster)
    (timeout : Duration) :
  let res := result (run h (NewClusterClientSet c timeout) w) in
  clusterName (fst res) = Name c
  /\ (kubeClient (fst res) = None <-> snd res <> None).
Proof.
  cbn zeta. unfold NewClusterClientSet, buildClusterConfig.
  run_pass h; (split; [reflexivity|]); split; intros H0; cbn in *;
    congruence.
Qed.


(** Construction and probe compose: the client set that comes with a
    construction error can still be probed, and the probe classifies it
    as ConfigMalformed without an error of its own. *)
Theorem probe_of_failed_construction (w w' : W) (c : FederatedCluster)
    (timeout : Duration) (e : error) :
  let built := result (run h (NewClusterClientSet c timeout) w) in
  snd built = Some e ->
  result (run h (GetClusterHealthStatus EqualFold (fst built)) w')
  = (Some {| Conditions :=
               [newClusterConfigMalformedCondition (fst (handle h Now w'))] |},
     None).
Proof.
  cbn zeta. rewrite run_GetClusterHealthStatus. cbn zeta.
  unfold NewClusterClientSet, buildClusterConfig.
  run_pass h; intros He; first [discriminate He | reflexivity].
Qed.

(** A transport failure, and nothing else, is handed to the error
    handler, wrapped with the name of the cluster. *)
Theorem GetClusterHealthStatus_reports_transport_error (w : W)
    (c : ClusterClient) (x : error) :
  let out := run h (GetClusterHealthStatus EqualFold c) w in
  In (CHandleError x) (trace out) <->
  exists kc body e,
    kubeClient c = Some kc
    /\ In (CHealthzGet kc (body, Some e)) (trace out)
    /\ x = Wrapf e "Failed to do cluster health check for cluster %q"
                  [clusterName c].
Proof.
  cbn zeta. rewrite run_GetClusterHealthStatus. cbn zeta.
  destruct (kubeClient c) as [kc|].
  - destruct (handle h (HealthzGet kc) _) as [[body [e|]] w2]; cbn; split.
    + intros Hin. trace_in Hin. injection Hin as <-.
      exists kc, body, e. repeat split. tauto.
    + intros (kc' & body' & e' & Hkc & Hin & ->). trace_in Hin.
      injection Hin as <- <- <-. tauto.
    + intros Hin. trace_in Hin.
    + intros (kc' & body' & e' & Hkc & Hin & ->). trace_in Hin.
  - cbn. split.
    + intros Hin. trace_in Hin.
    + intros (kc' & body' & e' & Hkc & _). discriminate Hkc.
Qed.

(** Every condition a health check emits has a reason, a message and a
    transition time, a status that is True or False (never Unknown) and
    one of the three condition types. *)
Theorem GetClusterHealthStatus_conditions_populated (w : W) (c : ClusterClient) :
  let out := run h (GetClusterHealthStatus EqualFold c) w in
  exists s, fst (result out) = Some s
    /\ Forall (fun cond =>
                 Reason cond <> None /\ Message cond <> None
                 /\ LastTransitionTime cond <> None
                 /\ (CondStatus cond = ConditionTrue
                     \/ CondStatus cond = ConditionFalse)
                 /\ In (CondType cond)
                       [ClusterReadyType; ClusterOffline; ClusterConfigMalformed])
              (Conditions s).
Proof.
  cbn zeta. rewrite run_GetClusterHealthStatus. cbn zeta.
  destruct (kubeClient c) as [kc|];
    [destruct (handle h (HealthzGet kc) _) as [[body [e|]] w2];
       [|destruct (negb _)]|];
    cbn; eexists; (split; [reflexivity|]);
    repeat (apply Forall_cons; split;
            [repeat split; try discriminate; cbn; tauto|]);
    apply Forall_nil_2.
Qed.

End ClusterClientSet.

(* ===================================================================== *)
(** ** The controller on the sample worlds                                *)
(* ===================================================================== *)

Example NewClusterClientSet_member1 :
  result (run world (NewClusterClientSet
                       (member1_with member1_endpoint ready_status) (Second * 5))
              world_ready)
  = (member1_client, None).
Proof. vm_compute. reflexivity. Qed.

Example asciiEqualFold_OK : asciiEqualFold "OK" "ok" = true.
Proof. reflexivity. Qed.

Example asciiEqualFold_degraded : asciiEqualFold "degraded" "ok" = false.
Proof. reflexivity. Qed.

(** C1.  In [world_ready] the status the probe classifies is the stored
    one, field for field; the comparison of [Reconcile] still reports a
    difference and the status update is invoked once. *)
Theorem Reconcile_writes_equal_status :
  let out := run world (Reconcile asciiEqualFold member1_request) world_ready in
  find_key member1_key (clusters world_ready)
    = Some (member1_with member1_endpoint ready_status)
  /\ result (run world (GetClusterHealthStatus asciiEqualFold member1_client)
                 world_ready)
     = (Some ready_status, None)
  /\ DeepEqual (PtrFederatedClusterStatus (Some ready_status))
               (ValFederatedClusterStatus ready_status) = false
  /\ result out = Some (Result_zero, None)
  /\ statusWrites (trace out) = 1%nat
  /\ statusUpdates (final out) = 1%nat.
Proof. vm_compute. repeat split. Qed.

(** C2.  In [world_no_endpoint] the construction of the client set
    fails; [Reconcile] returns that error to its caller, and the
    ConfigMalformed status a health check on the returned client set
    would give is neither computed nor stored. *)
Theorem Reconcile_aborts_on_malformed_config :
  let out := run world (Reconcile asciiEqualFold member1_request)
                 world_no_endpoint in
  result (run world (NewClusterClientSet
                       (member1_with "" {| Conditions := [] |}) (Second * 5))
              world_no_endpoint)
    = (member1_no_client,
       Some (Errorf "The api endpoint of cluster %s is empty" ["member1"]))
  /\ result out
     = Some (Result_zero,
             Some (Errorf "The api endpoint of cluster %s is empty" ["member1"]))
  /\ trace out
     = [CGetFederatedCluster member1_key
          (inl (member1_with "" {| Conditions := [] |}));
        CLogInfo "Failed to generate new clusterset" member1_key]
  /\ statusWrites (trace out) = 0%nat
  /\ final out = world_no_endpoint
  /\ fst (result (run world (GetClusterHealthStatus asciiEqualFold member1_no_client)
                      world_no_endpoint))
     = Some {| Conditions := [newClusterConfigMalformedCondition 100] |}.
Proof. vm_compute. repeat split. Qed.

(** C3, as stated, fails: the client set [NewClusterClientSet] returns
    for a cluster without endpoint has a nil client and comes with a
    construction error, and the health check on it returns a nil error,
    not that one. *)
Lemma GetClusterHealthStatus_nil_client_no_error :
  let built := result (run world (NewClusterClientSet
                                    (member1_with "" {| Conditions := [] |})
                                    (Second * 5))
                           world_no_endpoint) in
  let probed := result (run world (GetClusterHealthStatus asciiEqualFold (fst built))
                            world_no_endpoint) in
  kubeClient (fst built) = None
  /\ snd built = Some (Errorf "The api endpoint of cluster %s is empty" ["member1"])
  /\ snd probed = None
  /\ snd probed <> snd built.
Proof. vm_compute. repeat split. discriminate. Qed.

(** The nil-client health check on [member1]. *)
Lemma GetClusterHealthStatus_nil_client_witness :
  kubeClient member1_no_client = None
  /\ result (run world (GetClusterHealthStatus asciiEqualFold member1_no_client)
                 world_no_endpoint)
     = (Some {| Conditions := [newClusterConfigMalformedCondition 100] |}, None).
Proof.
  split; [reflexivity|].
  exact (proj1 (GetClusterHealthStatus_nil_client asciiEqualFold world
                  world_no_endpoint member1_no_client eq_refl)).
Defined.

(** [member1] answers [OK]. *)
Lemma GetClusterHealthStatus_ready_witness :
  let w := world_probe "OK" None None in
  kubeClient member1_client = Some member1_clientset
  /\ In (CHealthzGet member1_clientset (list_byte_of_string "OK", None))
        (trace (run world (GetClusterHealthStatus asciiEqualFold member1_client) w))
  /\ asciiEqualFold (string_of_list_byte (list_byte_of_string "OK")) "ok" = true
  /\ result (run world (GetClusterHealthStatus asciiEqualFold member1_client) w)
     = (Some {| Conditions := [newClusterReadyCondition 100] |}, None).
Proof.
  cbn zeta.
  assert (Hin : In (CHealthzGet member1_clientset (list_byte_of_string "OK", None))
                   (trace (run world
                             (GetClusterHealthStatus asciiEqualFold member1_client)
                             (world_probe "OK" None None))))
    by (vm_compute; auto).
  split; [reflexivity|]. split; [exact Hin|]. split; [reflexivity|].
  exact (GetClusterHealthStatus_ready asciiEqualFold world
           (world_probe "OK" None None) member1_client member1_clientset
           (list_byte_of_string "OK") eq_refl Hin eq_refl).
Defined.

(** [member1] answers [degraded]. *)
Lemma GetClusterHealthStatus_not_ready_witness :
  let w := world_probe "degraded" None None in
  kubeClient member1_client = Some member1_clientset
  /\ In (CHealthzGet member1_clientset (list_byte_of_string "degraded", None))
        (trace (run world (GetClusterHealthStatus asciiEqualFold member1_client) w))
  /\ asciiEqualFold (string_of_list_byte (list_byte_of_string "degraded")) "ok" = false
  /\ result (run world (GetClusterHealthStatus asciiEqualFold member1_client) w)
     = (Some {| Conditions := [newClusterNotReadyCondition 100;
                               newClusterNotOfflineCondition 100] |}, None).
Proof.
  cbn zeta.
  assert (Hin : In (CHealthzGet member1_clientset
                      (list_byte_of_string "degraded", None))
                   (trace (run world
                             (GetClusterHealthStatus asciiEqualFold member1_client)
                             (world_probe "degraded" None None))))
    by (vm_compute; auto).
  split; [reflexivity|]. split; [exact Hin|]. split; [reflexivity|].
  exact (GetClusterHealthStatus_not_ready asciiEqualFold world
           (world_probe "degraded" None None) member1_client member1_clientset
           (list_byte_of_string "degraded") eq_refl Hin eq_refl).
Defined.

(** The connection to [member1] times out. *)
Lemma GetClusterHealthStatus_offline_witness :
  let timeout := OtherError "context deadline exceeded" in
  let w := world_probe "" (Some timeout) None in
  kubeClient member1_client = Some member1_clientset
  /\ In (CHealthzGet member1_clientset ([], Some timeout))
        (trace (run world (GetClusterHealthStatus asciiEqualFold member1_client) w))
  /\ result (run world (GetClusterHealthStatus asciiEqualFold member1_client) w)
     = (Some {| Conditions := [newClusterOfflineCondition 100] |}, Some timeout).
Proof.
  cbn zeta.
  assert (Hin : In (CHealthzGet member1_clientset
                      ([], Some (OtherError "context deadline exceeded")))
                   (trace (run world
                             (GetClusterHealthStatus asciiEqualFold member1_client)
                             (world_probe "" (Some (OtherError "context deadline exceeded"))
                                          None))))
    by (vm_compute; auto).
  split; [reflexivity|]. split; [exact Hin|].
  exact (GetClusterHealthStatus_offline asciiEqualFold world _ member1_client
           member1_clientset [] _ eq_refl Hin).
Defined.

(** The store answers the status update for [member1] with a conflict,
    and then with a time-out. *)
Lemma Reconcile_update_failure_witness :
  let conflict := StatusError StatusReasonConflict in
  let failure := OtherError "etcdserver: request timed out" in
  let obj := member1_with member1_endpoint ready_status in
  let out1 := run world (Reconcile asciiEqualFold member1_request)
                  (world_probe "ok" None (Some conflict)) in
  let out2 := run world (Reconcile asciiEqualFold member1_request)
                  (world_probe "ok" None (Some failure)) in
  (In (CStatusUpdate obj (Some conflict)) (trace out1)
   /\ IsConflict conflict = true
   /\ result out1 = Some ({| Requeue := true; RequeueAfter := 0 |}, None))
  /\ (In (CStatusUpdate obj (Some failure)) (trace out2)
      /\ IsConflict failure = false
      /\ result out2 = Some ({| Requeue := false; RequeueAfter := 0 |}, None)
      /\ In (CLogInfo "Failed to update cluster status" member1_key) (trace out2)).
Proof.
  cbn zeta. split.
  - assert (Hin : In (CStatusUpdate (member1_with member1_endpoint ready_status)
                        (Some (StatusError StatusReasonConflict)))
                     (trace (run world (Reconcile asciiEqualFold member1_request)
                               (world_probe "ok" None
                                  (Some (StatusError StatusReasonConflict))))))
      by (vm_compute; auto 10).
    split; [exact Hin|]. split; [reflexivity|].
    exact (proj1 (Reconcile_update_failure asciiEqualFold world _ member1_request
                    _ _ Hin) eq_refl).
  - assert (Hin : In (CStatusUpdate (member1_with member1_endpoint ready_status)
                        (Some (OtherError "etcdserver: request timed out")))
                     (trace (run world (Reconcile asciiEqualFold member1_request)
                               (world_probe "ok" None
                                  (Some (OtherError "etcdserver: request timed out"))))))
      by (vm_compute; auto 10).
    split; [exact Hin|]. split; [reflexivity|].
    exact (proj2 (Reconcile_update_failure asciiEqualFold world _ member1_request
                    _ _ Hin) eq_refl).
Defined.

(** [member1] without endpoint fails the first check; [member1] with its
    endpoint and its secret passes the four and has its configuration
    built. *)
Lemma buildClusterConfig_fails_iff_witness :
  let bad := member1_with "" {| Conditions := [] |} in
  let good := member1_with member1_endpoint ready_status in
  let out := run world (buildClusterConfig bad) world_no_endpoint in
  (APIEndpoint (Spec bad) = ""
   /\ (exists e, result out = inr e)
   /\ configBuilds (trace out) = 0%nat
   /\ kubeClient (fst (result (run world (NewClusterClientSet bad (Second * 5))
                                   world_no_endpoint))) = None)
  /\ (exists s token r,
        Data s !! TokenKey = Some token /\ token <> []
        /\ trace (run world (buildClusterConfig good) world_ready)
           = [CGetSecret (keyObj good) (inl s);
              CBuildConfigFromFlags member1_endpoint "" r]).
Proof.
  cbn zeta. split.
  - pose proof (buildClusterConfig_fails_iff world world_no_endpoint
                  (member1_with "" {| Conditions := [] |}) (Second * 5)) as H.
    cbn zeta in H. destruct H as (Hiff & Hnil & _).
    match type of Hnil with ?M -> _ => assert (Hm : M) by (left; reflexivity) end.
    split; [reflexivity|].
    destruct (proj1 Hiff Hm) as [He Hb].
    split; [exact He|]. split; [exact Hb|]. exact (proj1 (Hnil Hm)).
  - pose proof (buildClusterConfig_fails_iff world world_ready
                  (member1_with member1_endpoint ready_status) (Second * 5)) as H.
    cbn zeta in H. destruct H as (_ & _ & Hgood).
    match type of Hgood with ~ ?M -> _ => assert (Hm : ~ M) end.
    { intros [Hx|[Hx|[[e Hx]|(s & Hx & [Hn|Hn])]]]; try discriminate Hx;
        vm_compute in Hx; injection Hx as <-; vm_compute in Hn; discriminate Hn. }
    destruct (Hgood Hm) as (s & token & r & _ & Htok & Hne & Htr & _).
    exists s, token, r. split; [exact Htok|]. split; [exact Hne|]. exact Htr.
Defined.

(* ===================================================================== *)
(** ** The further properties on the sample worlds                        *)
(* ===================================================================== *)

(** [member1] has been deleted when the pass starts. *)
Lemma Reconcile_not_found_witness :
  let err := StatusError StatusReasonNotFound in
  let out := run world (Reconcile asciiEqualFold member1_request) world_deleted in
  In (CGetFederatedCluster member1_key (inr err)) (trace out)
  /\ IsNotFound err = true
  /\ result out = Some (Result_zero, None)
  /\ trace out = [CGetFederatedCluster member1_key (inr err);
                  CLogInfo "Failed to get FederatedCluster" member1_key].
Proof.
  cbn zeta.
  assert (Hin : In (CGetFederatedCluster member1_key
                      (inr (StatusError StatusReasonNotFound)))
                   (trace (run world (Reconcile asciiEqualFold member1_request)
                             world_deleted)))
    by (vm_compute; auto).
  split; [exact Hin|]. split; [reflexivity|].
  exact (Reconcile_not_found asciiEqualFold world world_deleted member1_request
           _ Hin eq_refl).
Defined.

(** The store refuses the read of [member1]. *)
Lemma Reconcile_get_error_witness :
  let err := StatusError (StatusReasonOther "Forbidden") in
  let out := run (failing_store err) (Reconcile asciiEqualFold member1_request)
                 world_ready in
  In (CGetFederatedCluster member1_key (inr err)) (trace out)
  /\ IsNotFound err = false
  /\ result out = Some (Result_zero, Some err)
  /\ trace out = [CGetFederatedCluster member1_key (inr err);
                  CLogInfo "Failed to get FederatedCluster" member1_key].
Proof.
  cbn zeta.
  assert (Hin : In (CGetFederatedCluster member1_key
                      (inr (StatusError (StatusReasonOther "Forbidden"))))
                   (trace (run (failing_store
                                  (StatusError (StatusReasonOther "Forbidden")))
                             (Reconcile asciiEqualFold member1_request)
                             world_ready)))
    by (vm_compute; auto).
  split; [exact Hin|]. split; [reflexivity|].
  exact (Reconcile_get_error asciiEqualFold _ world_ready member1_request
           _ Hin eq_refl).
Defined.

(** The update of a pass over a healthy [member1]. *)
Lemma member1_update_in_trace :
  In (CStatusUpdate (member1_with member1_endpoint ready_status) None)
     (trace (run world (Reconcile asciiEqualFold member1_request)
               (world_probe "ok" None None))).
Proof. vm_compute. auto 10. Defined.

Lemma Reconcile_writes_probed_status_witness :
  let obj := member1_with member1_endpoint ready_status in
  let out := run world (Reconcile asciiEqualFold member1_request)
                 (world_probe "ok" None None) in
  In (CStatusUpdate obj None) (trace out)
  /\ exists fc t,
       In (CGetFederatedCluster member1_key (inl fc)) (trace out)
       /\ In (CNow t) (trace out)
       /\ Name obj = Name fc /\ Namespace obj = Namespace fc /\ Spec obj = Spec fc
       /\ In (Conditions (Status obj)) (probe_outcomes t).
Proof.
  cbn zeta. split; [exact member1_update_in_trace|].
  exact (Reconcile_writes_probed_status asciiEqualFold world _ member1_request
           _ _ member1_update_in_trace).
Defined.

Lemma Reconcile_never_writes_ConfigMalformed_witness :
  let obj := member1_with member1_endpoint ready_status in
  In (CStatusUpdate obj None)
     (trace (run world (Reconcile asciiEqualFold member1_request)
               (world_probe "ok" None None)))
  /\ Forall (fun cond => CondType cond <> ClusterConfigMalformed)
            (Conditions (Status obj)).
Proof.
  cbn zeta. split; [exact member1_update_in_trace|].
  exact (Reconcile_never_writes_ConfigMalformed asciiEqualFold world _
           member1_request _ _ member1_update_in_trace).
Defined.

Lemma Reconcile_update_success_witness :
  let out := run world (Reconcile asciiEqualFold member1_request)
                 (world_probe "ok" None None) in
  In (CStatusUpdate (member1_with member1_endpoint ready_status) None) (trace out)
  /\ result out = Some (Result_zero, None)
  /\ last (trace out)
     = Some (CLogInfo "Success to update cluster status" member1_key).
Proof.
  cbn zeta. split; [exact member1_update_in_trace|].
  exact (Reconcile_update_success asciiEqualFold world _ member1_request
           _ member1_update_in_trace).
Defined.

(** The connection to [member1] times out. *)
Lemma Reconcile_probe_error_not_returned_witness :
  let timeout := OtherError "context deadline exceeded" in
  let out := run world (Reconcile asciiEqualFold member1_request)
                 (world_probe "" (Some timeout) None) in
  In (CHealthzGet member1_clientset ([], Some timeout)) (trace out)
  /\ (exists res, result out = Some (res, None))
  /\ In (CLogInfo "Failed to get cluster status" member1_key) (trace out)
  /\ exists obj r t,
       In (CStatusUpdate obj r) (trace out)
       /\ Conditions (Status obj) = [newClusterOfflineCondition t].
Proof.
  cbn zeta.
  assert (Hin : In (CHealthzGet member1_clientset
                      ([], Some (OtherError "context deadline exceeded")))
                   (trace (run world (Reconcile asciiEqualFold member1_request)
                             (world_probe ""
                                (Some (OtherError "context deadline exceeded"))
                                None))))
    by (vm_compute; auto 10).
  split; [exact Hin|].
  exact (Reconcile_probe_error_not_returned asciiEqualFold world _
           member1_request _ _ _ Hin).
Defined.

(** The store times out on the status update of [member1]. *)
Lemma Reconcile_failed_update_logs_success_witness :
  let failure := OtherError "etcdserver: request timed out" in
  let obj := member1_with member1_endpoint ready_status in
  let out := run world (Reconcile asciiEqualFold member1_request)
                 (world_probe "ok" None (Some failure)) in
  In (CStatusUpdate obj (Some failure)) (trace out)
  /\ IsConflict failure = false
  /\ exists before,
       trace out
       = (before ++ [CStatusUpdate obj (Some failure);
                     CLogInfo "Failed to update cluster status" member1_key;
                     CLogInfo "Success to update cluster status" member1_key])%list.
Proof.
  cbn zeta.
  assert (Hin : In (CStatusUpdate (member1_with member1_endpoint ready_status)
                      (Some (OtherError "etcdserver: request timed out")))
                   (trace (run world (Reconcile asciiEqualFold member1_request)
                             (world_probe "ok" None
                                (Some (OtherError "etcdserver: request timed out"))))))
    by (vm_compute; auto 10).
  split; [exact Hin|]. split; [reflexivity|].
  exact (Reconcile_failed_update_logs_success asciiEqualFold world _
           member1_request _ _ Hin eq_refl).
Defined.

(** [member1] has no endpoint: the pass returns the construction error. *)
Lemma Reconcile_error_means_no_probe_witness :
  let e := Errorf "The api endpoint of cluster %s is empty" ["member1"] in
  let out := run world (Reconcile asciiEqualFold member1_request)
                 world_no_endpoint in
  snd <$> result out = Some (Some e)
  /\ clockReads (trace out) = 0%nat
  /\ healthzGets (trace out) = 0%nat
  /\ statusWrites (trace out) = 0%nat.
Proof.
  cbn zeta.
  assert (He : snd <$> result (run world (Reconcile asciiEqualFold member1_request)
                                   world_no_endpoint)
               = Some (Some (Errorf "The api endpoint of cluster %s is empty"
                                    ["member1"])))
    by (vm_compute; reflexivity).
  split; [exact He|].
  exact (Reconcile_error_means_no_probe asciiEqualFold world _ member1_request
           _ He).
Defined.

Lemma Reconcile_construction_failure_witness :
  let e := Errorf "The api endpoint of cluster %s is empty" ["member1"] in
  let fc := member1_with "" {| Conditions := [] |} in
  let out := run world (Reconcile asciiEqualFold member1_request)
                 world_no_endpoint in
  handle world (GetFederatedCluster member1_key) world_no_endpoint
    = (inl fc, world_no_endpoint)
  /\ snd (result (run world (NewClusterClientSet fc (Second * 5))
                     world_no_endpoint)) = Some e
  /\ result out = Some (Result_zero, Some e)
  /\ statusWrites (trace out) = 0%nat
  /\ clockReads (trace out) = 0%nat.
Proof.
  cbn zeta. split; [reflexivity|]. split; [reflexivity|].
  exact (Reconcile_construction_failure asciiEqualFold world world_no_endpoint
           world_no_endpoint member1_request
           (member1_with "" {| Conditions := [] |}) _ eq_refl eq_refl).
Defined.

Lemma Reconcile_secret_lookup_key_witness :
  let out := run world (Reconcile asciiEqualFold member1_request)
                 (world_probe "ok" None None) in
  In (CGetSecret member1_secret_key (inl member1_secret)) (trace out)
  /\ exists fc,
       In (CGetFederatedCluster member1_key (inl fc)) (trace out)
       /\ KeyNamespace member1_secret_key = Namespace fc
       /\ KeyName member1_secret_key = SecretRefName (SecretRef (Spec fc)).
Proof.
  cbn zeta.
  assert (Hin : In (CGetSecret member1_secret_key (inl member1_secret))
                   (trace (run world (Reconcile asciiEqualFold member1_request)
                             (world_probe "ok" None None))))
    by (vm_compute; auto 10).
  split; [exact Hin|].
  exact (Reconcile_secret_lookup_key asciiEqualFold world _ member1_request
           _ _ Hin).
Defined.


(** [member1] declared without endpoint. *)
Lemma buildClusterConfig_invalid_descriptor_witness :
  let c := member1_with "" {| Conditions := [] |} in
  let out := run world (buildClusterConfig c) world_no_endpoint in
  (APIEndpoint (Spec c) = "" \/ SecretRefName (SecretRef (Spec c)) = "")
  /\ trace out = [] /\ final out = world_no_endpoint
  /\ result out
     = inr (Errorf "The api endpoint of cluster %s is empty" ["member1"]).
Proof.
  cbn zeta. split; [left; reflexivity|].
  exact (buildClusterConfig_invalid_descriptor world world_no_endpoint
           (member1_with "" {| Conditions := [] |}) (or_introl eq_refl)).
Defined.

(** The secret of [member1] is not in the store. *)
Lemma buildClusterConfig_lookup_error_witness :
  let c := member1_with member1_endpoint {| Conditions := [] |} in
  let e := StatusError StatusReasonNotFound in
  let out := run world (buildClusterConfig c) world_no_secret in
  In (CGetSecret member1_secret_key (inr e)) (trace out)
  /\ result out = inr e
  /\ member1_secret_key = keyObj c
  /\ trace out = [CGetSecret member1_secret_key (inr e)].
Proof.
  cbn zeta.
  assert (Hin : In (CGetSecret member1_secret_key
                      (inr (StatusError StatusReasonNotFound)))
                   (trace (run world
                             (buildClusterConfig
                                (member1_with member1_endpoint {| Conditions := [] |}))
                             world_no_secret)))
    by (vm_compute; auto).
  split; [exact Hin|].
  exact (buildClusterConfig_lookup_error world world_no_secret _ _ _ Hin).
Defined.

(** The configuration built for [member1]. *)
Lemma buildClusterConfig_success_witness :
  let c := member1_with member1_endpoint ready_status in
  let cfg := {| Host := member1_endpoint; CAData := [];
                BearerToken := "s3cr3t"; QPS := 20; Burst := 30;
                Timeout := 0; UserAgent := "" |} in
  let out := run world (buildClusterConfig c) world_ready in
  result out = inl cfg
  /\ exists s token cfg0,
       trace out = [CGetSecret (keyObj c) (inl s);
                    CBuildConfigFromFlags (APIEndpoint (Spec c)) "" (inl cfg0)]
       /\ APIEndpoint (Spec c) <> "" /\ SecretRefName (SecretRef (Spec c)) <> ""
       /\ Data s !! TokenKey = Some token /\ token <> []
       /\ CAData cfg = CABundle (Spec c)
       /\ BearerToken cfg = string_of_list_byte token
       /\ QPS cfg = 20 /\ Burst cfg = 30
       /\ Host cfg = Host cfg0 /\ Timeout cfg = Timeout cfg0
       /\ UserAgent cfg = UserAgent cfg0.
Proof.
  cbn zeta.
  assert (Hr : result (run world
                         (buildClusterConfig
                            (member1_with member1_endpoint ready_status))
                         world_ready)
               = inl {| Host := member1_endpoint; CAData := [];
                        BearerToken := "s3cr3t"; QPS := 20; Burst := 30;
                        Timeout := 0; UserAgent := "" |})
    by (vm_compute; reflexivity).
  split; [exact Hr|].
  exact (buildClusterConfig_success world world_ready _ _ Hr).
Defined.


(** The secret of [member1] is missing: construction fails, and the
    client set returned is probed at instant 100. *)
Lemma probe_of_failed_construction_witness :
  let c := member1_with member1_endpoint {| Conditions := [] |} in
  let built := result (run world (NewClusterClientSet c (Second * 5))
                           world_no_secret) in
  snd built = Some (StatusError StatusReasonNotFound)
  /\ result (run world (GetClusterHealthStatus asciiEqualFold (fst built))
                 world_no_secret)
     = (Some {| Conditions := [newClusterConfigMalformedCondition 100] |}, None).
Proof.
  cbn zeta. split; [reflexivity|].
  exact (probe_of_failed_construction asciiEqualFold world world_no_secret
           world_no_secret
           (member1_with member1_endpoint {| Conditions := [] |})
           (Second * 5) (StatusError StatusReasonNotFound) eq_refl).
Defined.
